(** * Lindbladian pulse-optimisation example: a model of the script

    The repository holds one Python script,
    [ctrl_pulse_optim_example_Lindbladian_check_grad.py].  It builds a fixed
    physical model out of QuTiP operators, hands it to QuTiP's pulse
    optimiser, optionally compares the analytic gradient with a numerical
    one, runs the optimisation and reports.

    The development below follows the script top to bottom:
    - [PyStr]  : the fragment of [str.format] and [str] the script uses;
    - [Num]    : exact scalars a + b√2 + (c + d√2)i for the operator entries;
    - [Qobj]   : QuTiP quantum objects (dense matrices with their [dims]);
    - [Physics]: the operators of lines 47-84;
    - [NdArray]: two-dimensional numpy arrays with column assignment;
    - [script] : the script itself, as a state-and-exception computation over
      a world that holds the external library, the log of calls made to it,
      the console and the files written;
    - [Demo]   : a small library to run the script on. *)

From Stdlib Require Import QArith.
From Stdlib Require Import Ascii String.
From stdpp Require Import gmap strings list pretty.


(** ** Exceptions and outcomes

    A Python expression either yields a value or raises.  The script has no
    [try] statement, so a raised exception is only ever passed on. *)

Inductive Exn : Type :=
  | ValueError
  | IndexError
  | TypeError
  | OSError
  | OtherError (name : string).

Inductive Outcome (A : Type) : Type :=
  | Ok (a : A)
  | Raised (e : Exn).
Arguments Ok {A} a.
Arguments Raised {A} e.

(** ** Python strings *)

Module PyStr.

(** [tpl.format(a1, ..., an)] where every argument has already been passed
    through [str].  Literal text is copied, [{}] takes the next argument,
    doubled braces stand for one brace.  Running out of arguments is an
    [IndexError]; surplus arguments are ignored; a brace that opens
    anything other than [{}] is outside the fragment used by the script
    and is reported as a [ValueError], which is also what Python does for
    a single unmatched brace. *)
Fixpoint format (tpl : string) (args : list string) : Outcome string :=
  match tpl with
  | EmptyString => Ok EmptyString
  | String "{"%char (String "}"%char rest) =>
      match args with
      | [] => Raised IndexError
      | a :: args' =>
          match format rest args' with
          | Ok r => Ok (a +:+ r)
          | Raised e => Raised e
          end
      end
  | String "{"%char (String "{"%char rest) =>
      match format rest args with
      | Ok r => Ok (String "{"%char r)
      | Raised e => Raised e
      end
  | String "}"%char (String "}"%char rest) =>
      match format rest args with
      | Ok r => Ok (String "}"%char r)
      | Raised e => Raised e
      end
  | String "{"%char _ => Raised ValueError
  | String "}"%char _ => Raised ValueError
  | String c rest =>
      match format rest args with
      | Ok r => Ok (String c r)
      | Raised e => Raised e
      end
  end.

(** [str(n)] for a Python [int]. *)
Definition str_int (n : Z) : string := pretty n.

End PyStr.

(** ** Source-level constants that name the output file (lines 42, 88, 107) *)

Record Config : Type := mkConfig {
  example_name : string;
  n_ts : nat;
  evo_time : Z;
  fid_err_targ : Q;
  max_iter : Z;
  max_wall_time : Z;
  min_grad : Q;
  check_gradient : bool;
  p_type : string
}.

(** The values written in the script. *)
Definition config0 : Config := {|
  example_name := "Lindblad";
  n_ts := 10;
  evo_time := 5;
  fid_err_targ := 1 # 1000;
  max_iter := 500;
  max_wall_time := 30;
  min_grad := 1 # (10 ^ 20);
  check_gradient := true;
  p_type := "LIN"
|}.

(** Line 111: [f_ext = "{}_n_ts{}_ptype{}.txt".format(example_name, n_ts, p_type)] *)
Definition f_ext (cfg : Config) : Outcome string :=
  PyStr.format "{}_n_ts{}_ptype{}.txt"
    [example_name cfg; PyStr.str_int (Z.of_nat (n_ts cfg)); p_type cfg].

(** Line 143: [pulsefile = "ctrl_amps_initial_" + f_ext] *)
Definition pulsefile_of (ext : string) : string := "ctrl_amps_initial_" +:+ ext.

Definition pulsefile (cfg : Config) : Outcome string :=
  match f_ext cfg with
  | Ok ext => Ok (pulsefile_of ext)
  | Raised e => Raised e
  end.

(** ** Scalars

    Operator entries in the script are built from the integers 0, 1, 2, the
    float literal [0.1], the imaginary unit and QuTiP's [2 ** (-N / 2)].
    They all live in the field Q(√2, i); a scalar is kept as the four
    rational coordinates of r1 + r2·√2 + (i1 + i2·√2)·i, each in lowest terms,
    so that equal scalars are equal terms.  Float literals are read at their
    decimal value. *)

Module Num.

Local Open Scope Q_scope.

Record num : Type := mk { r1 : Q; r2 : Q; i1 : Q; i2 : Q }.

Definition of_Q (q : Q) : num := mk (Qred q) 0 0 0.
Definition of_Z (z : Z) : num := of_Q (inject_Z z).
Definition zero : num := of_Z 0.
Definition one : num := of_Z 1.
(** Python's [1j] *)
Definition j : num := mk 0 0 1 0.
(** √2 / 2, the value of [2 ** (-1 / 2)] *)
Definition inv_sqrt2 : num := mk 0 (1 # 2) 0 0.

Definition add (x y : num) : num :=
  mk (Qred (r1 x + r1 y)) (Qred (r2 x + r2 y))
     (Qred (i1 x + i1 y)) (Qred (i2 x + i2 y)).

Definition neg (x : num) : num :=
  mk (Qred (- r1 x)) (Qred (- r2 x)) (Qred (- i1 x)) (Qred (- i2 x)).

Definition sub (x y : num) : num := add x (neg y).

(** (a + b√2)(c + d√2) = (ac + 2bd) + (ad + bc)√2, used on the real and
    imaginary parts of the complex product. *)
Definition mul (x y : num) : num :=
  let rr1 := r1 x * r1 y + 2 * (r2 x * r2 y) in
  let rr2 := r1 x * r2 y + r2 x * r1 y in
  let ii1 := i1 x * i1 y + 2 * (i2 x * i2 y) in
  let ii2 := i1 x * i2 y + i2 x * i1 y in
  let ri1 := r1 x * i1 y + 2 * (r2 x * i2 y) in
  let ri2 := r1 x * i2 y + r2 x * i1 y in
  let ir1 := i1 x * r1 y + 2 * (i2 x * r2 y) in
  let ir2 := i1 x * r2 y + i2 x * r1 y in
  mk (Qred (rr1 - ii1)) (Qred (rr2 - ii2))
     (Qred (ri1 + ir1)) (Qred (ri2 + ir2)).

Fixpoint pow (x : num) (n : nat) : num :=
  match n with
  | O => one
  | S n' => mul x (pow x n')
  end.

End Num.

(** ** QuTiP quantum objects

    A [Qobj] is a dense matrix (list of rows) together with the list of
    subsystem dimensions QuTiP keeps in [dims]; every operator of the script
    is square, so one list serves for rows and columns.  The constructors and
    the arithmetic below are QuTiP's, which is not part of the repository;
    they follow its documented meaning: Pauli matrices, identity, Kronecker
    product for [tensor], plain transpose for [trans], and the Hadamard
    transform on N qubits with entries 2^(-N/2)·(-1)^popcount(i & j). *)

Module Qobj.

Import Num.

Definition matrix : Type := list (list num).

Record t : Type := mk { dims : list nat; data : matrix }.

(** [Qobj(np.array(rows))] for a literal integer array *)
Definition of_array (rows : list (list Z)) : t :=
  mk [length rows] (map (map of_Z) rows).

Definition sigmax : t := mk [2%nat] [[zero; one]; [one; zero]].
Definition sigmay : t := mk [2%nat] [[zero; neg j]; [j; zero]].
Definition sigmaz : t := mk [2%nat] [[one; zero]; [zero; neg one]].

Definition identity (n : nat) : t :=
  mk [n] (map (fun r => map (fun c => if Nat.eqb r c then one else zero)
                            (seq 0 n)) (seq 0 n)).

Fixpoint transpose_rows (m : matrix) (ncols : nat) : matrix :=
  match ncols with
  | O => []
  | S k => transpose_rows m k ++ [map (fun row => nth k row zero) m]
  end.

Definition ncols (m : matrix) : nat :=
  match m with
  | [] => O
  | row :: _ => length row
  end.

Definition trans (a : t) : t :=
  mk (dims a) (transpose_rows (data a) (ncols (data a))).

Definition kron (a b : matrix) : matrix :=
  concat (map (fun ra =>
                 map (fun rb => concat (map (fun x => map (mul x) rb) ra)) b)
              a).

Definition tensor (a b : t) : t := mk (dims a ++ dims b) (kron (data a) (data b)).

(** [c * a] for a scalar [c] *)
Definition scale (c : num) (a : t) : t := mk (dims a) (map (map (mul c)) (data a)).

Definition same_dims (a b : t) : bool :=
  bool_decide (dims a = dims b).

Definition zip_rows (f : num -> num -> num) (a b : matrix) : matrix :=
  zip_with (zip_with f) a b.

(** [a + b] and [a - b]: QuTiP refuses operands whose dimensions differ. *)
Definition add (a b : t) : Outcome t :=
  if same_dims a b then Ok (mk (dims a) (zip_rows Num.add (data a) (data b)))
  else Raised TypeError.

Definition sub (a b : t) : Outcome t :=
  if same_dims a b then Ok (mk (dims a) (zip_rows Num.sub (data a) (data b)))
  else Raised TypeError.

(** Parity of the number of one bits. *)
Fixpoint odd_bits_pos (p : positive) : bool :=
  match p with
  | xH => true
  | xO p' => odd_bits_pos p'
  | xI p' => negb (odd_bits_pos p')
  end.

Definition odd_bits (n : N) : bool :=
  match n with
  | N0 => false
  | Npos p => odd_bits_pos p
  end.

Definition hadamard_transform (n : nat) : t :=
  let size := Nat.pow 2 n in
  let s := pow inv_sqrt2 n in
  mk (replicate n 2%nat)
     (map (fun r => map (fun c =>
             if odd_bits (N.land (N.of_nat c) (N.of_nat r)) then neg s else s)
                        (seq 0 size)) (seq 0 size)).

End Qobj.

(** ** The physics of the problem (lines 47-84) *)

Module Physics.

Import Qobj.
Local Open Scope Z_scope.

Definition Sx : Qobj.t := sigmax.
Definition Sy : Qobj.t := sigmay.
Definition Sz : Qobj.t := sigmaz.
Definition Si : Qobj.t := identity 2.

Definition Sd : Qobj.t := of_array [[0; 1]; [0; 0]].
Definition Sm : Qobj.t := of_array [[0; 0]; [1; 0]].
Definition Sd_m : Qobj.t := of_array [[1; 0]; [0; 0]].
Definition Sm_d : Qobj.t := of_array [[0; 0]; [0; 1]].

(** Damping rate *)
Definition gamma : Num.num := Num.of_Q (1 # 10).

(** [-1j] *)
Definition minus_j : Num.num := Num.neg Num.j.

(** Sequencing of operator expressions that may raise. *)
Definition obind {A B} (o : Outcome A) (k : A -> Outcome B) : Outcome B :=
  match o with
  | Ok a => k a
  | Raised e => Raised e
  end.

(** [L0_Ad = gamma*(2*tensor(Sm, Sd.trans()) -
              (tensor(Sd_m, Si) + tensor(Si, Sd_m.trans())))] *)
Definition L0_Ad_with (g : Num.num) : Outcome Qobj.t :=
  obind (add (tensor Sd_m Si) (tensor Si (trans Sd_m))) (fun rhs =>
  obind (sub (scale (Num.of_Z 2) (tensor Sm (trans Sd))) rhs) (fun d =>
  Ok (scale g d))).

Definition L0_Ad : Outcome Qobj.t := L0_Ad_with gamma.

(** [LC_x = -1j*(tensor(Sx, Si) - tensor(Si, Sx))] *)
Definition LC_x : Outcome Qobj.t :=
  obind (sub (tensor Sx Si) (tensor Si Sx)) (fun d => Ok (scale minus_j d)).

(** [LC_y = -1j*(tensor(Sy, Si) - tensor(Si, Sy.trans()))] *)
Definition LC_y : Outcome Qobj.t :=
  obind (sub (tensor Sy Si) (tensor Si (trans Sy))) (fun d => Ok (scale minus_j d)).

(** [LC_z = -1j*(tensor(Sz, Si) - tensor(Si, Sz))] *)
Definition LC_z : Outcome Qobj.t :=
  obind (sub (tensor Sz Si) (tensor Si Sz)) (fun d => Ok (scale minus_j d)).

Definition initial : Qobj.t := identity 4.

Definition had_gate : Qobj.t := hadamard_transform 1.
Definition target_DP : Qobj.t := tensor had_gate had_gate.

(** The operators in scope once line 84 has run. *)
Record model : Type := mkModel {
  m_L0_Ad : Qobj.t;
  m_LC_x : Qobj.t;
  m_LC_y : Qobj.t;
  m_LC_z : Qobj.t;
  m_initial : Qobj.t;
  m_target_DP : Qobj.t
}.

Definition build : Outcome model :=
  obind L0_Ad (fun l0 =>
  obind LC_x (fun lx =>
  obind LC_y (fun ly =>
  obind LC_z (fun lz =>
  Ok (mkModel l0 lx ly lz initial target_DP))))).

(** The operators the script ends up with, evaluated once. *)
Definition model0 : model :=
  Eval vm_compute in
    match build with
    | Ok m => m
    | Raised _ => mkModel initial initial initial initial initial initial
    end.

(** [m] with another operator bound to the name [LC_y]. *)
Definition with_LC_y (y : Qobj.t) (m : model) : model :=
  mkModel (m_L0_Ad m) (m_LC_x m) y (m_LC_z m) (m_initial m) (m_target_DP m).

(** Line 74: [drift = L0_Ad]; line 76: [ctrls = [LC_z, LC_x]];
    line 78: [n_ctrls = len(ctrls)]. *)
Definition drift (m : model) : Qobj.t := m_L0_Ad m.

(** For a generator [l] acting on the four entries of a one-qubit density
    matrix, the entries of vec(I)ᵀ·l: row 0 plus row 3.  They are all zero
    exactly when [l] maps every operator to a traceless one. *)
Definition trace_row (l : Qobj.t) : list Num.num :=
  zip_with Num.add (nth 0 (data l) []) (nth 3 (data l) []).
Definition ctrls (m : model) : list Qobj.t := [m_LC_z m; m_LC_x m].
Definition n_ctrls (m : model) : nat := length (ctrls m).

End Physics.

(** ** The external library

    QuTiP's optimiser, scipy's [check_grad] and matplotlib are opaque
    collaborators.  Each call the script makes to them is a [Call]; the
    library answers with a value of the type the call promises or raises, and
    moves to a new internal state.  Floats produced by the library are an
    abstract type [Amp]. *)

Record Kwargs : Type := mkKwargs {
  kw_fid_err_targ : Q;
  kw_min_grad : Q;
  kw_max_iter : Z;
  kw_max_wall_time : Z;
  kw_init_pulse_type : string;
  kw_log_level : Z;
  kw_gen_stats : bool
}.

(** The two bound methods of the optimiser handed to [check_grad]. *)
Inductive Wrapper : Type :=
  | fid_err_func_wrapper
  | fid_err_grad_wrapper.

(** The two subplots, in the order the script creates them. *)
Inductive Axes : Type :=
  | ax1
  | ax2.

Section WithLibrary.

Variable Amp : Type.
(** The float [0.0] that [np.zeros] fills with. *)
Variable amp0 : Amp.
(** [str(x)] for a float, and [str(datetime.timedelta(seconds=x))]. *)
Variable str_float : Amp -> string.
Variable str_timedelta : Amp -> string.
(** [qutip.logging_utils.INFO] *)
Variable logging_INFO : Z.

(** *** numpy arrays of shape (nrows, ncols), stored row-major *)

Record NdArray : Type := mkNdArray {
  nrows : nat;
  ncols : nat;
  cells : list Amp
}.

(** [np.zeros([t, n])] *)
Definition np_zeros (t n : nat) : NdArray :=
  mkNdArray t n (replicate (t * n) amp0).

(** The cells of [a] with column [j] overwritten by [v], row by row. *)
Definition write_column (a : NdArray) (j : nat) (v : list Amp) : NdArray :=
  mkNdArray (nrows a) (ncols a)
    (imap (fun k x =>
             if Nat.eqb (Nat.modulo k (ncols a)) j
             then default x (v !! Nat.div k (ncols a))
             else x)
          (cells a)).

(** [a[:, j] = v].  numpy wants a valid column index and a right-hand side
    that broadcasts to the column: as long as the column, or of length one. *)
Definition set_column (a : NdArray) (j : nat) (v : list Amp) : Outcome NdArray :=
  if Nat.leb (ncols a) j then Raised IndexError
  else if Nat.eqb (length v) (nrows a) then Ok (write_column a j v)
  else if Nat.eqb (length v) 1
       then Ok (write_column a j (replicate (nrows a) (hd amp0 v)))
  else Raised ValueError.

(** [a[:, j]] *)
Definition get_column (a : NdArray) (j : nat) : Outcome (list Amp) :=
  if Nat.leb (ncols a) j then Raised IndexError
  else Ok ((fun i => default amp0 (cells a !! (i * ncols a + j)%nat))
             <$> seq 0 (nrows a)).

(** [a.flatten()] *)
Definition flatten (a : NdArray) : list Amp := cells a.

(** *** The optimisation result record *)

Record Result : Type := mkResult {
  (** the text [str] gives for the final evolution, its only use here *)
  evo_full_final : string;
  fid_err : Amp;
  termination_reason : string;
  num_iter : Z;
  wall_time : Amp;
  time : list Amp;
  initial_amps : NdArray;
  final_amps : NdArray
}.

(** *** Calls into the library, in the order of first use *)

Inductive Call : Type :=
  | create_pulse_optimizer (drift : Qobj.t) (ctrls : list Qobj.t)
      (initial target : Qobj.t) (num_tslots : nat) (evo_time : Z) (kw : Kwargs)
  | gen_pulse
  | initialize_controls (amps : NdArray)
  | save_amps (file_name : string)
  | check_grad (func grad : Wrapper) (x0 : list Amp)
  | run_optimization
  | stats_report
  | plt_figure
  | add_subplot (nrows ncols index : Z)
  | set_title (ax : Axes) (label : string)
  | set_xlabel (ax : Axes) (label : string)
  | set_ylabel (ax : Axes) (label : string)
  | plot (ax : Axes) (xs ys : list Amp)
  | plt_show.

(** What each call returns when it does not raise. *)
Definition Ret (c : Call) : Type :=
  match c with
  | gen_pulse => list Amp
  | check_grad _ _ _ => Amp
  | run_optimization => Result
  | _ => unit
  end.

(** What the log keeps of an answer. *)
Inductive Resp : Type :=
  | RNone
  | RPulse (p : list Amp)
  | RFloat (v : Amp)
  | RResult (r : Result)
  | RRaised (e : Exn).

Definition resp_of_unit (o : Outcome unit) : Resp :=
  match o with
  | Ok _ => RNone
  | Raised e => RRaised e
  end.

Definition resp_of (c : Call) : Outcome (Ret c) -> Resp :=
  match c return Outcome (Ret c) -> Resp with
  | gen_pulse => fun o => match o with Ok p => RPulse p | Raised e => RRaised e end
  | check_grad _ _ _ => fun o => match o with Ok v => RFloat v | Raised e => RRaised e end
  | run_optimization => fun o => match o with Ok r => RResult r | Raised e => RRaised e end
  | create_pulse_optimizer _ _ _ _ _ _ _ => resp_of_unit
  | initialize_controls _ => resp_of_unit
  | save_amps _ => resp_of_unit
  | stats_report => resp_of_unit
  | plt_figure => resp_of_unit
  | add_subplot _ _ _ => resp_of_unit
  | set_title _ _ => resp_of_unit
  | set_xlabel _ _ => resp_of_unit
  | set_ylabel _ _ => resp_of_unit
  | plot _ _ _ => resp_of_unit
  | plt_show => resp_of_unit
  end.

(** The library: a state and its answer to every call. *)
Variable lstate : Type.
Variable handle : forall c : Call, lstate -> Outcome (Ret c) * lstate.

(** *** The world the script runs in *)

Record World : Type := mkWorld {
  (** the library's own state *)
  lib : lstate;
  (** [dyn.ctrl_amps], set by [dyn.initialize_controls] *)
  ctrl_amps : option NdArray;
  (** every call made so far with its answer, oldest first *)
  log : list (Call * Resp);
  (** what [print] has written, one entry per call *)
  stdout : list string;
  (** amplitude files on disk, by name *)
  files : gmap string NdArray
}.

(** A fresh process: nothing called or printed yet; [fs] is what is on disk. *)
Definition start (s : lstate) (fs : gmap string NdArray) : World :=
  mkWorld s None [] [] fs.

(** *** The script monad: state plus uncaught exceptions *)

Definition M (A : Type) : Type := World -> Outcome A * World.

Definition ret {A} (a : A) : M A := fun w => (Ok a, w).

Definition raise {A} (e : Exn) : M A := fun w => (Raised e, w).

Definition bind {A B} (m : M A) (k : A -> M B) : M B :=
  fun w =>
    match m w with
    | (Ok a, w') => k a w'
    | (Raised e, w') => (Raised e, w')
    end.

#[local] Instance M_ret : MRet M := @ret.
#[local] Instance M_bind : MBind M := fun A B k m => bind m k.

Definition lift {A} (o : Outcome A) : M A := fun w => (o, w).

Definition call (c : Call) : M (Ret c) :=
  fun w =>
    let (o, s) := handle c (lib w) in
    (o, mkWorld s (ctrl_amps w) (log w ++ [(c, resp_of c o)]) (stdout w) (files w)).

Definition print (line : string) : M unit :=
  fun w => (Ok tt, mkWorld (lib w) (ctrl_amps w) (log w) (stdout w ++ [line]) (files w)).

Definition when (b : bool) (m : M unit) : M unit := if b then m else ret tt.

(** [for j in js: body(j)] *)
Fixpoint for_each (js : list nat) (body : nat -> M unit) : M unit :=
  match js with
  | [] => ret tt
  | j :: js' => body j ;; for_each js' body
  end.

(** [dyn.ctrl_amps], as an attribute read and as an attribute write *)
Definition dyn_ctrl_amps : M NdArray :=
  fun w =>
    match ctrl_amps w with
    | Some a => (Ok a, w)
    | None => (Raised (OtherError "AttributeError"), w)
    end.

Definition set_dyn_ctrl_amps (a : NdArray) : M unit :=
  fun w => (Ok tt, mkWorld (lib w) (Some a) (log w) (stdout w) (files w)).

Definition write_file (file_name : string) (a : NdArray) : M unit :=
  fun w => (Ok tt, mkWorld (lib w) (ctrl_amps w) (log w) (stdout w)
                           (<[file_name := a]> (files w))).

(** [dyn.initialize_controls(amps)]: on success the dynamics object holds
    the amplitudes. *)
Definition dyn_initialize_controls (amps : NdArray) : M unit :=
  call (initialize_controls amps) ;;
  set_dyn_ctrl_amps amps.

(** [dyn.save_amps(file_name)]: on success the file holds the amplitudes of
    the dynamics object, one row per time slot. *)
Definition dyn_save_amps (file_name : string) : M unit :=
  call (save_amps file_name) ;;
  a ← dyn_ctrl_amps ;
  write_file file_name a.

(** *** The script, from line 111 on *)

Definition nl : string := String "010"%char EmptyString.
Definition stars : string := "***********************************".

(** Line 43: [log_level = logging.INFO] *)
Definition log_level : Z := logging_INFO.

(** The keyword arguments of lines 129-132. *)
Definition kwargs (cfg : Config) : Kwargs := {|
  kw_fid_err_targ := fid_err_targ cfg;
  kw_min_grad := min_grad cfg;
  kw_max_iter := max_iter cfg;
  kw_max_wall_time := max_wall_time cfg;
  kw_init_pulse_type := p_type cfg;
  kw_log_level := log_level;
  kw_gen_stats := true
|}.

(** Lines 137-138: [for j in range(n_ctrls): init_amps[:, j] = p_gen.gen_pulse()] *)
Fixpoint fill_columns (js : list nat) (init_amps : NdArray) : M NdArray :=
  match js with
  | [] => ret init_amps
  | j :: js' =>
      p ← call gen_pulse ;
      a ← lift (set_column init_amps j p) ;
      fill_columns js' a
  end.

(** Lines 136-138 *)
Definition generate_init_amps (t n : nat) : M NdArray :=
  fill_columns (seq 0 n) (np_zeros t n).

(** Lines 149-155, the body of [if check_gradient:] *)
Definition gradient_check : M unit :=
  print stars ;;
  print "Checking gradient" ;;
  a ← dyn_ctrl_amps ;
  grad_diff ← call (check_grad fid_err_func_wrapper fid_err_grad_wrapper (flatten a)) ;
  line ← lift (PyStr.format "Normalised grad diff: {}" [str_float grad_diff]) ;
  print line.

(** Lines 164-177 *)
Definition report (result : Result) : M unit :=
  print stars ;;
  print (nl +:+ "Optimising complete. Stats follow:") ;;
  call stats_report ;;
  l1 ← lift (PyStr.format ("Final evolution" +:+ nl +:+ "{}" +:+ nl)
                          [evo_full_final result]) ;
  print l1 ;;
  print "********* Summary *****************" ;;
  l2 ← lift (PyStr.format "Final fidelity error {}" [str_float (fid_err result)]) ;
  print l2 ;;
  l3 ← lift (PyStr.format "Terminated due to {}" [termination_reason result]) ;
  print l3 ;;
  l4 ← lift (PyStr.format "Number of iterations {}" [PyStr.str_int (num_iter result)]) ;
  print l4 ;;
  l5 ← lift (PyStr.format "Completed in {} HH:MM:SS.US"
                          [str_timedelta (wall_time result)]) ;
  print l5 ;;
  print stars.

(** Lines 186-188 and 193-195: one line per control on the given axes *)
Definition plot_columns (ax : Axes) (t : list Amp) (amps : NdArray) (n : nat) : M unit :=
  for_each (seq 0 n) (fun j =>
    col ← lift (get_column amps j) ;
    call (plot ax t col)).

(** Lines 180-197 *)
Definition plot_result (cfg : Config) (n_ctrls : nat) (result : Result) : M unit :=
  call plt_figure ;;
  call (add_subplot 2 1 1) ;;
  call (set_title ax1 "Initial ctrl amps") ;;
  call (set_xlabel ax1 "Time") ;;
  call (set_ylabel ax1 "Control amplitude") ;;
  let t := take (n_ts cfg) (time result) in
  plot_columns ax1 t (initial_amps result) n_ctrls ;;
  call (add_subplot 2 1 2) ;;
  call (set_title ax2 "Optimised Control Sequences") ;;
  call (set_xlabel ax2 "Time") ;;
  call (set_ylabel ax2 "Control amplitude") ;;
  plot_columns ax2 t (final_amps result) n_ctrls ;;
  call plt_show.

(** Lines 111-197, with the operators of lines 47-84 in [m]. *)
Definition script_from (cfg : Config) (m : Physics.model) : M unit :=
  ext ← lift (f_ext cfg) ;
  print (nl +:+ stars) ;;
  print "Starting pulse optimisation" ;;
  call (create_pulse_optimizer (Physics.drift m) (Physics.ctrls m)
          (Physics.m_initial m) (Physics.m_target_DP m)
          (n_ts cfg) (evo_time cfg) (kwargs cfg)) ;;
  init_amps ← generate_init_amps (n_ts cfg) (Physics.n_ctrls m) ;
  dyn_initialize_controls init_amps ;;
  let pulsefile := pulsefile_of ext in
  dyn_save_amps pulsefile ;;
  when (Z.leb log_level logging_INFO)
       (print ("Initial amplitudes output to file: " +:+ pulsefile)) ;;
  when (check_gradient cfg) gradient_check ;;
  print stars ;;
  print "Starting pulse optimisation" ;;
  result ← call run_optimization ;
  report result ;;
  plot_result cfg (Physics.n_ctrls m) result.

(** The whole script. *)
Definition script (cfg : Config) : M unit :=
  m ← lift Physics.build ;
  script_from cfg m.

(** *** Reading the log *)

(** Which operation of the library a call is. *)
Inductive Kind : Type :=
  | KCreate
  | KGenPulse
  | KInitialize
  | KSaveAmps
  | KCheckGrad
  | KRun
  | KStats
  | KPlot.

#[global] Instance Kind_eq_dec : EqDecision Kind.
Proof. solve_decision. Defined.

Definition kind_of (c : Call) : Kind :=
  match c with
  | create_pulse_optimizer _ _ _ _ _ _ _ => KCreate
  | gen_pulse => KGenPulse
  | initialize_controls _ => KInitialize
  | save_amps _ => KSaveAmps
  | check_grad _ _ _ => KCheckGrad
  | run_optimization => KRun
  | stats_report => KStats
  | _ => KPlot
  end.

(** How many calls of kind [k] the log holds. *)
Fixpoint count_kind (k : Kind) (l : list (Call * Resp)) : nat :=
  match l with
  | [] => 0
  | (c, _) :: tl =>
      if bool_decide (kind_of c = k) then S (count_kind k tl) else count_kind k tl
  end.

(** The calls of a log, without their answers. *)
Definition calls_of (l : list (Call * Resp)) : list Call := map fst l.

(** [P pre x post] at every way of cutting [l] into [pre ++ x :: post],
    with [acc] standing before [l]. *)
Fixpoint at_every_cut {A} (P : list A -> A -> list A -> Prop)
  (acc l : list A) : Prop :=
  match l with
  | [] => True
  | x :: tl => P acc x tl /\ at_every_cut P (acc ++ [x]) tl
  end.

(** The log entry of a [gen_pulse] call that returned [p]. *)
Definition pulse_entry (p : list Amp) : Call * Resp := (gen_pulse, RPulse p).

(** The file names handed to [save_amps], oldest first. *)
Fixpoint saved_names (l : list (Call * Resp)) : list string :=
  match l with
  | [] => []
  | (save_amps f, _) :: tl => f :: saved_names tl
  | _ :: tl => saved_names tl
  end.

(** The lines drawn, oldest first: axes, abscissae, ordinates. *)
Fixpoint plotted (l : list (Call * Resp)) : list (Axes * list Amp * list Amp) :=
  match l with
  | [] => []
  | (plot ax xs ys, _) :: tl => (ax, xs, ys) :: plotted tl
  | _ :: tl => plotted tl
  end.

(** The value the gradient check returned, if it was made and returned. *)
Fixpoint returned_grad_diff (l : list (Call * Resp)) : option Amp :=
  match l with
  | [] => None
  | (check_grad _ _ _, RFloat v) :: _ => Some v
  | _ :: tl => returned_grad_diff tl
  end.

(** What the script prints, by the [print] statements of lines 114-115 and
    146, of lines 149-155, and of lines 157-177. *)
Definition opening_lines (file_name : string) : list string :=
  [nl +:+ stars; "Starting pulse optimisation";
   "Initial amplitudes output to file: " +:+ file_name].

Definition gradient_lines (grad_diff : Amp) : list string :=
  [stars; "Checking gradient"; "Normalised grad diff: " +:+ str_float grad_diff].

Definition summary_lines (result : Result) : list string :=
  [stars; "Starting pulse optimisation"; stars;
   nl +:+ "Optimising complete. Stats follow:";
   "Final evolution" +:+ nl +:+ evo_full_final result +:+ nl;
   "********* Summary *****************";
   "Final fidelity error " +:+ str_float (fid_err result);
   "Terminated due to " +:+ termination_reason result;
   "Number of iterations " +:+ PyStr.str_int (num_iter result);
   "Completed in " +:+ str_timedelta (wall_time result) +:+ " HH:MM:SS.US";
   stars].

Definition transcript (file_name : string) (grad_diff : option Amp)
  (result : Result) : list string :=
  opening_lines file_name ++
  match grad_diff with
  | Some v => gradient_lines v
  | None => []
  end ++
  summary_lines result.

(** The kinds of the calls of a log. *)
Definition kinds (l : list (Call * Resp)) : list Kind := kind_of <$> calls_of l.

(** The calls a run makes when nothing raises, by kind: the factory, one
    pulse per control, initialisation, the save, the gradient check if asked
    for, the optimisation, the statistics report, and the plotting calls
    (figure, subplot, title, two axis labels, one line per control, twice
    over, and [show]). *)
Definition plan (check : bool) (n_ctrls : nat) : list Kind :=
  KCreate :: replicate n_ctrls KGenPulse ++ [KInitialize; KSaveAmps] ++
  (if check then [KCheckGrad] else []) ++ [KRun; KStats] ++
  replicate 5 KPlot ++ replicate n_ctrls KPlot ++
  replicate 4 KPlot ++ replicate n_ctrls KPlot ++ [KPlot].

End WithLibrary.

Arguments nrows {Amp} _.
Arguments ncols {Amp} _.
Arguments cells {Amp} _.
Arguments mkNdArray {Amp} _ _ _.
Arguments gen_pulse {Amp}.
Arguments run_optimization {Amp}.
Arguments stats_report {Amp}.
Arguments plt_figure {Amp}.
Arguments plt_show {Amp}.
Arguments RNone {Amp}.
Arguments RRaised {Amp} e.
Arguments lib {Amp lstate} _.
Arguments ctrl_amps {Amp lstate} _.
Arguments log {Amp lstate} _.
Arguments stdout {Amp lstate} _.
Arguments files {Amp lstate} _.
Arguments start {Amp lstate} s fs.
Arguments kind_of {Amp} c.
Arguments count_kind {Amp} k l.
Arguments calls_of {Amp} l.
Arguments pulse_entry {Amp} p.
Arguments saved_names {Amp} l.
Arguments plotted {Amp} l.
Arguments returned_grad_diff {Amp} l.
Arguments kinds {Amp} l.
Arguments at_every_cut {A} P acc l.

(** ** A small stand-in library

    Integer amplitudes, a linear ramp for every pulse, a fixed gradient
    discrepancy and a result that hands the initial amplitudes back.  Its
    [quirks] pick the calls that raise, lengthen every pulse by [extra]
    entries, or make the initial amplitudes of the result one column wide.
    It is used to run the script on concrete inputs. *)

Module Demo.

Definition Amp : Type := Z.

Record quirks : Type := mkQuirks {
  fault : Call Amp -> bool;
  extra : nat;
  narrow : bool
}.

Record state : Type := mkState {
  tslots : nat;
  held : NdArray Amp
}.

Definition state0 : state := mkState 0 (mkNdArray 0 0 []).

Definition ramp (t : nat) : list Amp := map Z.of_nat (seq 0 t).

Definition result_of (q : quirks) (s : state) : Result Amp := {|
  evo_full_final := "Qobj";
  fid_err := 0%Z;
  termination_reason := "Goal achieved";
  num_iter := 7%Z;
  wall_time := 1%Z;
  time := ramp (S (tslots s));
  initial_amps :=
    if narrow q then mkNdArray (tslots s) 1 (ramp (tslots s)) else held s;
  final_amps := held s
|}.

Definition answer (q : quirks) (c : Call Amp) (s : state) : Ret Amp c * state :=
  match c return Ret Amp c * state with
  | create_pulse_optimizer _ _ _ _ _ t _ _ => (tt, mkState t (held s))
  | gen_pulse => (ramp (tslots s + extra q), s)
  | initialize_controls _ a => (tt, mkState (tslots s) a)
  | check_grad _ _ _ _ => (3%Z, s)
  | run_optimization => (result_of q s, s)
  | save_amps _ _ => (tt, s)
  | stats_report => (tt, s)
  | plt_figure => (tt, s)
  | add_subplot _ _ _ _ => (tt, s)
  | set_title _ _ _ => (tt, s)
  | set_xlabel _ _ _ => (tt, s)
  | set_ylabel _ _ _ => (tt, s)
  | plot _ _ _ _ => (tt, s)
  | plt_show => (tt, s)
  end.

Definition handle (q : quirks) (c : Call Amp) (s : state)
  : Outcome (Ret Amp c) * state :=
  if fault q c then (Raised (OtherError "fault"), s)
  else let (r, s') := answer q c s in (Ok r, s').

(** No quirk at all. *)
Definition plain : quirks := mkQuirks (fun _ => false) 0 false.

(** Every call of kind [k] raises. *)
Definition failing (k : Kind) : quirks :=
  mkQuirks (fun c => bool_decide (kind_of c = k)) 0 false.

(** Pulses two entries too long. *)
Definition long_pulses : quirks := mkQuirks (fun _ => false) 2 false.

(** Initial amplitudes of the result with a single column. *)
Definition narrow_result : quirks := mkQuirks (fun _ => false) 0 true.

Definition run (q : quirks) (cfg : Config) : Outcome unit * World Amp state :=
  script Amp 0%Z pretty pretty 20%Z state (handle q) cfg (start state0 ∅).

(** The script's configuration with three time slots, and the same without
    the gradient check. *)
Definition cfg3 : Config :=
  mkConfig "Lindblad" 3 5 (1 # 1000) 500 30 (1 # (10 ^ 20)) true "LIN".

Definition cfg3_quiet : Config :=
  mkConfig "Lindblad" 3 5 (1 # 1000) 500 30 (1 # (10 ^ 20)) false "LIN".

End Demo.

(** * Properties *)

(** ** The file name with the script's constants *)

Example f_ext_config0 : f_ext config0 = Ok "Lindblad_n_ts10_ptypeLIN.txt"%string.
Proof. reflexivity. Qed.

Example pulsefile_config0 :
  pulsefile config0 = Ok "ctrl_amps_initial_Lindblad_n_ts10_ptypeLIN.txt"%string.
Proof. reflexivity. Qed.


(** ** Columns of an array *)

Section Arrays.
Context {Amp : Type} (amp0 : Amp).

Local Abbreviation set_column := (set_column Amp amp0).
Local Abbreviation get_column := (get_column Amp amp0).
Local Abbreviation write_column := (write_column Amp).

Lemma cell_index_mod (i j n : nat) : j < n -> Nat.modulo (i * n + j) n = j.
Proof.
  intros Hj. rewrite Nat.add_comm, Nat.Div0.mod_add. apply Nat.mod_small, Hj.
Qed.

Lemma cell_index_div (i j n : nat) : j < n -> Nat.div (i * n + j) n = i.
Proof.
  intros Hj. rewrite Nat.add_comm, Nat.div_add by lia.
  rewrite Nat.div_small by exact Hj. reflexivity.
Qed.

Lemma write_column_shape (a : NdArray Amp) j v :
  nrows (write_column a j v) = nrows a /\
  ncols (write_column a j v) = ncols a /\
  length (cells (write_column a j v)) = length (cells a).
Proof. unfold write_column; simpl. rewrite length_imap. auto. Qed.

Lemma get_column_write_same (a : NdArray Amp) j v :
  j < ncols a -> length v = nrows a ->
  length (cells a) = nrows a * ncols a ->
  get_column (write_column a j v) j = Ok v.
Proof.
  intros Hj Hv Hwf. unfold get_column, write_column; simpl.
  destruct (Nat.leb_spec (ncols a) j) as [Hle|_]; [lia|].
  f_equal. apply list_eq; intros i.
  rewrite list_lookup_fmap.
  destruct (decide (i < nrows a)) as [Hi|Hi].
  - rewrite lookup_seq_lt by exact Hi. simpl.
    rewrite list_lookup_imap.
    destruct (lookup_lt_is_Some_2 (cells a) (i * ncols a + j)) as [x Hx]; [nia|].
    rewrite Hx. simpl.
    rewrite cell_index_mod, cell_index_div by exact Hj.
    rewrite Nat.eqb_refl.
    destruct (lookup_lt_is_Some_2 v i) as [y Hy]; [lia|].
    rewrite Hy. reflexivity.
  - rewrite (lookup_ge_None_2 (seq 0 (nrows a))) by (rewrite length_seq; lia).
    rewrite lookup_ge_None_2 by lia. reflexivity.
Qed.

Lemma get_column_write_other (a : NdArray Amp) j j' v :
  j' <> j -> get_column (write_column a j v) j' = get_column a j'.
Proof.
  intros Hne. unfold get_column, write_column; simpl.
  destruct (Nat.leb_spec (ncols a) j') as [Hle|Hlt]; [reflexivity|].
  f_equal. apply list_fmap_ext; intros _ i _.
  rewrite list_lookup_imap.
  destruct (cells a !! (i * ncols a + j')) as [x|]; [|reflexivity].
  simpl. rewrite cell_index_mod by exact Hlt.
  destruct (Nat.eqb_spec j' j) as [->|_]; [contradiction|reflexivity].
Qed.

Lemma set_column_Ok (a a' : NdArray Amp) j v :
  set_column a j v = Ok a' ->
  j < ncols a /\
  exists v', a' = write_column a j v' /\ (length v = nrows a -> v' = v).
Proof.
  unfold set_column.
  destruct (Nat.leb_spec (ncols a) j) as [Hle|Hlt]; [discriminate|].
  destruct (Nat.eqb_spec (length v) (nrows a)) as [Hv|Hv].
  - intros [= <-]. split; [exact Hlt|]. exists v. auto.
  - destruct (Nat.eqb (length v) 1); [|discriminate].
    intros [= <-]. split; [exact Hlt|].
    exists (replicate (nrows a) (hd amp0 v)). split; [reflexivity|]. intros; contradiction.
Qed.

Lemma set_column_shape (a a' : NdArray Amp) j v :
  set_column a j v = Ok a' ->
  nrows a' = nrows a /\ ncols a' = ncols a /\
  length (cells a') = length (cells a).
Proof.
  intros H. destruct (set_column_Ok _ _ _ _ H) as (_ & v' & -> & _).
  apply write_column_shape.
Qed.

Lemma set_column_total (a : NdArray Amp) j v :
  j < ncols a -> length v = nrows a -> set_column a j v = Ok (write_column a j v).
Proof.
  intros Hj Hv. unfold set_column.
  destruct (Nat.leb_spec (ncols a) j) as [Hle|_]; [lia|].
  rewrite Hv, Nat.eqb_refl. reflexivity.
Qed.

End Arrays.

Section Loop.
Context {Amp : Type} (amp0 : Amp) {lstate : Type}
  (handle : forall c : Call Amp, lstate -> Outcome (Ret Amp c) * lstate).

Local Abbreviation fill_columns := (fill_columns Amp amp0 lstate handle).
Local Abbreviation get_column := (get_column Amp amp0).

Lemma fill_columns_spec js : forall a w a' w',
  fill_columns js a w = (Ok a', w') ->
  (nrows a' = nrows a /\ ncols a' = ncols a /\ length (cells a') = length (cells a)) /\
  (ctrl_amps w' = ctrl_amps w /\ stdout w' = stdout w /\ files w' = files w) /\
  exists ps,
    length ps = length js /\
    log w' = log w ++ (pulse_entry <$> ps) /\
    (forall j, j ∉ js -> get_column a' j = get_column a j) /\
    (NoDup js -> length (cells a) = nrows a * ncols a ->
     forall i j p, js !! i = Some j -> ps !! i = Some p -> length p = nrows a ->
       get_column a' j = Ok p).
Proof.
  induction js as [|j js IH]; intros a w a' w'.
  - intros [= <- <-]. repeat split; auto. exists []. simpl.
    rewrite app_nil_r. repeat split; auto. intros _ _ i j p H; discriminate.
  - cbn [fill_columns]. unfold mbind, M_bind, bind, call, lift.
    destruct (handle gen_pulse (lib w)) as [[p|e] s] eqn:Hp; [|discriminate].
    destruct (set_column Amp amp0 a j p) as [a1|e] eqn:Hset; [|discriminate].
    intros Hrest. apply IH in Hrest.
    destruct Hrest as ((Hr & Hc & Hl) & (Hca & Hso & Hfi) & ps & Hlen & Hlog & Hother & Hsame).
    pose proof (set_column_shape _ _ _ _ _ Hset) as (Hr1 & Hc1 & Hl1).
    destruct (set_column_Ok _ _ _ _ _ Hset) as (Hj & v' & Ha1 & Hv').
    simpl in Hca, Hso, Hfi, Hlog.
    split; [repeat split; congruence|].
    split; [repeat split; congruence|].
    exists (p :: ps). split; [simpl; congruence|].
    split; [rewrite Hlog, <- app_assoc; reflexivity|].
    split.
    + intros j0 Hj0. apply not_elem_of_cons in Hj0 as [Hne Hj0].
      rewrite Hother by exact Hj0.
      subst a1. apply get_column_write_other. exact Hne.
    + intros Hnd Hwf i j0 p0 Hi Hpi Hp0.
      apply NoDup_cons in Hnd as [Hnotin Hnd].
      destruct i as [|i]; simpl in Hi, Hpi.
      * injection Hi as <-. injection Hpi as <-.
        rewrite Hother by exact Hnotin.
        rewrite Ha1, (Hv' Hp0).
        apply get_column_write_same; auto.
      * apply (Hsame Hnd ltac:(congruence) i j0 p0 Hi Hpi). congruence.
Qed.

End Loop.

(** ** Column reads and writes that raise *)

Section ColumnEdges.
Context {Amp : Type} (amp0 : Amp).

Lemma get_column_Ok (a : NdArray Amp) j v :
  get_column Amp amp0 a j = Ok v -> j < ncols a.
Proof.
  unfold get_column. destruct (Nat.leb_spec (ncols a) j); [discriminate|auto].
Qed.

Lemma get_column_Raised (a : NdArray Amp) j e :
  get_column Amp amp0 a j = Raised e -> e = IndexError /\ ncols a <= j.
Proof.
  unfold get_column. destruct (Nat.leb_spec (ncols a) j); [|discriminate].
  intros [= <-]. auto.
Qed.

Lemma set_column_Ok_length (a a' : NdArray Amp) j v :
  set_column Amp amp0 a j v = Ok a' -> length v = nrows a \/ length v = 1.
Proof.
  unfold set_column. destruct (Nat.leb (ncols a) j); [discriminate|].
  destruct (Nat.eqb_spec (length v) (nrows a)); [auto|].
  destruct (Nat.eqb_spec (length v) 1); [auto|discriminate].
Qed.

Lemma set_column_Raised (a : NdArray Amp) j v e :
  set_column Amp amp0 a j v = Raised e -> j < ncols a -> e = ValueError.
Proof.
  unfold set_column. destruct (Nat.leb_spec (ncols a) j); [lia|].
  destruct (Nat.eqb (length v) (nrows a)); [discriminate|].
  destruct (Nat.eqb (length v) 1); [discriminate|].
  intros [= <-] _. reflexivity.
Qed.

Lemma set_column_Ok_facts (a a' : NdArray Amp) j v :
  set_column Amp amp0 a j v = Ok a' ->
  (length v = nrows a \/ length v = 1) /\ nrows a' = nrows a /\ ncols a' = ncols a.
Proof.
  intros H. split; [exact (set_column_Ok_length _ _ _ _ H)|].
  destruct (set_column_shape amp0 _ _ _ _ H) as (? & ? & _). auto.
Qed.

Lemma two_columns t (p0 p1 : list Amp) (a0 a1 : NdArray Amp) :
  set_column Amp amp0 (np_zeros Amp amp0 t 2) 0 p0 = Ok a0 ->
  set_column Amp amp0 a0 1 p1 = Ok a1 ->
  length p0 = t -> length p1 = t ->
  get_column Amp amp0 a1 0 = Ok p0 /\ get_column Amp amp0 a1 1 = Ok p1.
Proof.
  intros H0 H1 L0 L1.
  destruct (set_column_Ok amp0 _ _ _ _ H0) as (_ & v0 & -> & Hv0).
  rewrite (Hv0 L0) in *. clear Hv0 v0.
  destruct (set_column_Ok amp0 _ _ _ _ H1) as (_ & v1 & -> & Hv1).
  cbn in Hv1. rewrite (Hv1 L1) in *. clear Hv1 v1.
  split.
  - rewrite get_column_write_other by lia.
    apply get_column_write_same; cbn; rewrite ?length_replicate; lia.
  - apply get_column_write_same; cbn; rewrite ?length_imap, ?length_replicate; lia.
Qed.

End ColumnEdges.

(** ** Cutting a log *)

Lemma at_every_cut_spec {A} (P : list A -> A -> list A -> Prop) l :
  forall acc, at_every_cut P acc l ->
  forall pre x post, l = pre ++ x :: post -> P (acc ++ pre) x post.
Proof.
  induction l as [|y l IH]; intros acc H pre x post E.
  - destruct pre; discriminate.
  - destruct H as [Hy Hl]. destruct pre as [|z pre]; simpl in E.
    + injection E as -> ->. rewrite app_nil_r. exact Hy.
    + injection E as -> ->.
      replace (acc ++ z :: pre) with ((acc ++ [z]) ++ pre)
        by (rewrite <- app_assoc; reflexivity).
      apply IH; [exact Hl | reflexivity].
Qed.

(** ** The operators and the file name *)

Lemma build_ok : Physics.build = Ok Physics.model0.
Proof. vm_compute. reflexivity. Qed.

Lemma f_ext_ok cfg :
  f_ext cfg =
  Ok (example_name cfg +:+ "_n_ts" +:+ PyStr.str_int (Z.of_nat (n_ts cfg))
        +:+ "_ptype" +:+ p_type cfg +:+ ".txt").
Proof. reflexivity. Qed.

Lemma append_empty_r (x : string) : x +:+ EmptyString = x.
Proof.
  induction x as [|c x IH]; [reflexivity|].
  change (String c (x +:+ EmptyString) = String c x). f_equal. exact IH.
Qed.

Lemma format_grad_diff (x : string) :
  PyStr.format "Normalised grad diff: {}" [x] = Ok ("Normalised grad diff: " +:+ x).
Proof.
  change (Ok ("Normalised grad diff: " +:+ (x +:+ EmptyString)) =
          Ok ("Normalised grad diff: " +:+ x)).
  rewrite append_empty_r. reflexivity.
Qed.

Lemma format_evolution (x : string) :
  PyStr.format ("Final evolution" +:+ nl +:+ "{}" +:+ nl) [x] =
  Ok ("Final evolution" +:+ nl +:+ x +:+ nl).
Proof. reflexivity. Qed.

Lemma format_fid_err (x : string) :
  PyStr.format "Final fidelity error {}" [x] = Ok ("Final fidelity error " +:+ x).
Proof.
  change (Ok ("Final fidelity error " +:+ (x +:+ EmptyString)) =
          Ok ("Final fidelity error " +:+ x)).
  rewrite append_empty_r. reflexivity.
Qed.

Lemma format_terminated (x : string) :
  PyStr.format "Terminated due to {}" [x] = Ok ("Terminated due to " +:+ x).
Proof.
  change (Ok ("Terminated due to " +:+ (x +:+ EmptyString)) = Ok ("Terminated due to " +:+ x)).
  rewrite append_empty_r. reflexivity.
Qed.

Lemma format_iterations (x : string) :
  PyStr.format "Number of iterations {}" [x] = Ok ("Number of iterations " +:+ x).
Proof.
  change (Ok ("Number of iterations " +:+ (x +:+ EmptyString)) =
          Ok ("Number of iterations " +:+ x)).
  rewrite append_empty_r. reflexivity.
Qed.

Lemma format_completed (x : string) :
  PyStr.format "Completed in {} HH:MM:SS.US" [x] =
  Ok ("Completed in " +:+ x +:+ " HH:MM:SS.US").
Proof. reflexivity. Qed.

(** ** Runs of the script *)

Section Properties.
Context {Amp : Type} (amp0 : Amp) (str_float str_timedelta : Amp -> string)
  (logging_INFO : Z) {lstate : Type}
  (handle : forall c : Call Amp, lstate -> Outcome (Ret Amp c) * lstate).

Local Abbreviation script_from :=
  (script_from Amp amp0 str_float str_timedelta logging_INFO lstate handle).
Local Abbreviation script :=
  (script Amp amp0 str_float str_timedelta logging_INFO lstate handle).
Local Abbreviation generate_init_amps := (generate_init_amps Amp amp0 lstate handle).
Local Abbreviation get_column := (get_column Amp amp0).
Local Abbreviation kwargs := (kwargs logging_INFO).

Lemma script_unfold cfg w : script cfg w = script_from cfg Physics.model0 w.
Proof. unfold script. rewrite build_ok. reflexivity. Qed.

(** Symbolic execution: find the call or array operation the run is waiting
    for, split on its answer, evaluate up to the next one. *)

Ltac innermost t :=
  lazymatch t with
  | context [match ?x with _ => _ end] => innermost x
  | _ => t
  end.

Ltac run_step :=
  lazymatch goal with
  | |- ?lhs = _ -> _ =>
      let x := innermost lhs in
      lazymatch x with
      | handle ?c ?s =>
          let o := fresh "o" in let s' := fresh "s" in
          destruct (handle c s) as [[o|o] s'] eqn:?
      | set_column _ _ _ _ _ => destruct x eqn:?
      | get_column _ _ => destruct x eqn:?
      | PyStr.format _ _ =>
          let H := fresh "Hfmt" in
          destruct x eqn:H;
          rewrite ?format_grad_diff, ?format_evolution, ?format_fid_err,
            ?format_terminated, ?format_iterations, ?format_completed in H;
          [injection H as <- | discriminate H]
      | f_ext ?cfg =>
          let H := fresh "Hext" in
          destruct x eqn:H; [|rewrite f_ext_ok in H; discriminate H]
      | check_gradient _ => destruct x eqn:?
      end
  end.

Ltac run_eval :=
  cbv beta iota zeta delta
    [mbind mret M_bind M_ret bind ret raise lift call print when for_each
     fill_columns set_dyn_ctrl_amps dyn_ctrl_amps write_file
     lib ctrl_amps log stdout files start resp_of resp_of_unit app fst snd
     Physics.n_ctrls Physics.ctrls length seq].

Ltac run_start :=
  lazymatch goal with
  | |- _ = _ -> ?Q => let Post := fresh "Post" in set (Post := Q)
  end;
  unfold script_from, generate_init_amps,
    dyn_initialize_controls, dyn_save_amps, gradient_check, report,
    plot_result, plot_columns, log_level;
  rewrite Z.leb_refl; run_eval.

Ltac run_leaf tac :=
  lazymatch goal with
  | |- (_, _) = (_, _) -> _ =>
      repeat match goal with P := _ : Prop |- _ => subst P end;
      intros [= <- <-];
      cbv beta iota delta [log stdout files ctrl_amps lib]; tac
  end.

Ltac run_all tac := run_start; repeat first [run_leaf tac | run_step; run_eval].

Ltac each_cut tac :=
  cbn [at_every_cut app]; repeat (split; [solve [tac] | ]); exact I.

Ltac in_list := cbn [In]; repeat first [left; reflexivity | right].

(** A raised answer is the last entry of the log and the outcome of the run. *)
Lemma raised_is_last cfg m s fs o w' :
  script_from cfg m (start s fs) = (o, w') ->
  at_every_cut
    (fun _ x post => forall c e, x = (c, RRaised e) -> post = [] /\ o = Raised e)
    [] (log w').
Proof.
  run_all ltac:(each_cut ltac:(intros ? ? [=]; subst; auto)).
Qed.

(** The first call made is the factory, with the script's arguments; it and
    the optimisation run are never called twice, and a run that completes has
    run the optimisation. *)
Lemma factory_first cfg m s fs o w' :
  script_from cfg m (start s fs) = (o, w') ->
  (exists resp rest,
     log w' =
     (create_pulse_optimizer Amp (Physics.drift m) (Physics.ctrls m)
        (Physics.m_initial m) (Physics.m_target_DP m)
        (n_ts cfg) (evo_time cfg) (kwargs cfg), resp) :: rest) /\
  count_kind KCreate (log w') = 1 /\
  count_kind KRun (log w') <= 1 /\
  (o = Ok tt -> count_kind KRun (log w') = 1).
Proof.
  run_all ltac:(split; [eexists _, _; reflexivity|];
                split; [reflexivity|]; split; [vm_compute; lia|];
                intros Hok; first [discriminate Hok | reflexivity]).
Qed.

(** The array handed to [dyn.initialize_controls] has one row per time slot
    and one column per control, and no more pulses are generated than there
    are controls. *)
Lemma init_amps_shape_in_run cfg m s fs o w' :
  script_from cfg m (start s fs) = (o, w') ->
  Forall (fun e => forall a, fst e = initialize_controls Amp a ->
                   nrows a = n_ts cfg /\ ncols a = Physics.n_ctrls m /\
                   length (cells a) = n_ts cfg * Physics.n_ctrls m)
         (log w') /\
  count_kind KGenPulse (log w') <= Physics.n_ctrls m /\
  count_kind KInitialize (log w') <= 1.
Proof.
  run_all ltac:(
    repeat match goal with
           | H : set_column _ _ _ _ _ = Ok _ |- _ =>
               apply set_column_shape in H; destruct H as (? & ? & ?)
           end;
    cbn [nrows ncols cells np_zeros] in *;
    split; [|split; vm_compute; lia];
    repeat (apply List.Forall_cons;
            [intros ? E; cbn [fst] in E; try discriminate E;
             injection E as <-; unfold Physics.n_ctrls; cbn [length Physics.ctrls];
             rewrite ?length_replicate in *; repeat split; congruence|]);
    apply List.Forall_nil).
Qed.

(** Whenever the gradient check or the optimisation run is called, the
    amplitudes have been initialised and saved before, under the name
    [pulsefile], nothing is saved afterwards, and the file is on disk at the
    end of the run. *)
Lemma saved_before cfg m s fs o w' :
  script_from cfg m (start s fs) = (o, w') ->
  at_every_cut
    (fun pre x post =>
       kind_of (fst x) = KCheckGrad \/ kind_of (fst x) = KRun ->
       exists f a,
         pulsefile cfg = Ok f /\
         files w' !! f = Some a /\
         In (initialize_controls Amp a, RNone) pre /\
         In (save_amps Amp f, RNone) pre /\
         count_kind KInitialize post = 0 /\
         count_kind KSaveAmps post = 0)
    [] (log w').
Proof.
  run_all ltac:(each_cut ltac:(
    intros [H|H]; cbn in H;
    first
      [ discriminate H
      | eexists _, _;
        split; [unfold pulsefile; rewrite Hext; reflexivity|];
        split; [apply lookup_insert_eq|];
        split; [in_list|]; split; [in_list|]; split; reflexivity ])).
Qed.

(** Every [save_amps] call names the file [pulsefile]. *)
Lemma saved_name cfg m s fs o w' :
  script_from cfg m (start s fs) = (o, w') ->
  Forall (fun e => forall f, fst e = save_amps Amp f -> pulsefile cfg = Ok f) (log w') /\
  count_kind KSaveAmps (log w') <= 1.
Proof.
  run_all ltac:(
    split; [|vm_compute; lia];
    repeat (apply List.Forall_cons;
            [intros ? E; cbn [fst] in E; try discriminate E;
             injection E as <-; unfold pulsefile; rewrite Hext; reflexivity|]);
    apply List.Forall_nil).
Qed.

(** The gradient check: made only under the flag, at most once, on the
    flattened amplitudes the dynamics object holds; whatever value comes
    back is printed and the optimisation run is the next call. *)
Lemma gradient_check_in_run cfg m s fs o w' :
  script_from cfg m (start s fs) = (o, w') ->
  (check_gradient cfg = false -> count_kind KCheckGrad (log w') = 0) /\
  count_kind KCheckGrad (log w') <= 1 /\
  at_every_cut
    (fun pre x post =>
       kind_of (fst x) = KCheckGrad ->
       check_gradient cfg = true /\
       exists a,
         fst x = check_grad Amp fid_err_func_wrapper fid_err_grad_wrapper (flatten Amp a) /\
         In (initialize_controls Amp a, RNone) pre /\
         ctrl_amps w' = Some a /\
         forall v, snd x = RFloat Amp v ->
           In ("Normalised grad diff: " +:+ str_float v) (stdout w') /\
           exists resp post', post = (run_optimization, resp) :: post')
    [] (log w').
Proof.
  run_all ltac:(
    split; [intros Hflag; first [congruence | reflexivity]|];
    split; [vm_compute; lia|];
    each_cut ltac:(
      intros H; cbn in H;
      first
        [ discriminate H
        | split; [first [assumption | reflexivity]|];
          eexists; split; [reflexivity|];
          split; [in_list|]; split; [reflexivity|];
          intros v Hv; cbn [snd] in Hv;
          first
            [ discriminate Hv
            | injection Hv as <-;
              split; [in_list | eexists _, _; reflexivity] ] ])).
Qed.

(** The kinds of the calls made are an initial part of the plan, and the whole
    plan when the run completes. *)
Lemma follows_plan cfg m s fs o w' :
  script_from cfg m (start s fs) = (o, w') ->
  (exists rest, plan (check_gradient cfg) (Physics.n_ctrls m) = kinds (log w') ++ rest) /\
  (o = Ok tt -> kinds (log w') = plan (check_gradient cfg) (Physics.n_ctrls m)).
Proof.
  run_all ltac:(
    split; [eexists; reflexivity|];
    intros Hok; first [discriminate Hok | reflexivity]).
Qed.

(** What a completed run has printed. *)
Lemma transcript_of_run cfg m s fs o w' :
  script_from cfg m (start s fs) = (o, w') ->
  o = Ok tt ->
  exists f r,
    pulsefile cfg = Ok f /\
    In (run_optimization, RResult Amp r) (log w') /\
    stdout w' =
      transcript Amp str_float str_timedelta f (returned_grad_diff (log w')) r.
Proof.
  run_all ltac:(
    intros Hok; first
      [ discriminate Hok
      | eexists _, _;
        split; [unfold pulsefile; rewrite Hext; reflexivity|];
        split; [in_list | reflexivity] ]).
Qed.

(** The lines a completed run has drawn, and its last call. *)
Lemma plots_of_run cfg m s fs o w' :
  script_from cfg m (start s fs) = (o, w') ->
  o = Ok tt ->
  exists r c0 c1 d0 d1,
    In (run_optimization, RResult Amp r) (log w') /\
    get_column (initial_amps Amp r) 0 = Ok c0 /\
    get_column (initial_amps Amp r) 1 = Ok c1 /\
    get_column (final_amps Amp r) 0 = Ok d0 /\
    get_column (final_amps Amp r) 1 = Ok d1 /\
    plotted (log w') =
      [(ax1, take (n_ts cfg) (time Amp r), c0);
       (ax1, take (n_ts cfg) (time Amp r), c1);
       (ax2, take (n_ts cfg) (time Amp r), d0);
       (ax2, take (n_ts cfg) (time Amp r), d1)] /\
    last (calls_of (log w')) = Some plt_show.
Proof.
  run_all ltac:(
    intros Hok; first
      [ discriminate Hok
      | eexists _, _, _, _, _;
        split; [in_list|];
        repeat (split; [eassumption|]);
        split; reflexivity ]).
Qed.

Ltac split_in H :=
  cbn [In] in H;
  repeat (destruct H as [H|H]; [try discriminate H; injection H as <- | ]);
  try contradiction.

(** A pulse of the wrong length stops the script with a [ValueError] before
    anything is initialised or written. *)
Lemma bad_pulse_stops cfg m s fs o w' :
  script_from cfg m (start s fs) = (o, w') ->
  forall p, In (gen_pulse, RPulse Amp p) (log w') ->
  length p <> n_ts cfg -> length p <> 1 ->
  o = Raised ValueError /\
  count_kind KInitialize (log w') = 0 /\
  count_kind KSaveAmps (log w') = 0 /\
  files w' = fs /\ ctrl_amps w' = None.
Proof.
  run_all ltac:(
    intros p Hin Hn H1;
    repeat match goal with
           | H : set_column _ _ _ _ _ = Ok _ |- _ =>
               apply set_column_Ok_facts in H; destruct H as (? & ? & ?)
           end;
    cbn [nrows ncols np_zeros] in *;
    repeat match goal with
           | H : set_column _ _ _ _ _ = Raised _ |- _ =>
               apply set_column_Raised in H; [subst | cbn [ncols np_zeros]; lia]
           end;
    split_in Hin;
    first [ exfalso; lia | repeat split; reflexivity ]).
Qed.

(** A result with fewer columns than controls stops the script with an
    [IndexError] before the figure is shown. *)
Lemma narrow_result_stops cfg m s fs o w' :
  script_from cfg m (start s fs) = (o, w') ->
  forall r, In (run_optimization, RResult Amp r) (log w') ->
  ncols (initial_amps Amp r) < Physics.n_ctrls m \/
  ncols (final_amps Amp r) < Physics.n_ctrls m ->
  o <> Ok tt /\
  (forall resp, ~ In (plt_show, resp) (log w')) /\
  ((forall c e, ~ In (c, RRaised e) (log w')) -> o = Raised IndexError).
Proof.
  run_all ltac:(
    intros r Hin Hnarrow;
    unfold Physics.n_ctrls in Hnarrow; cbn [length Physics.ctrls] in Hnarrow;
    repeat match goal with
           | H : get_column _ _ = Ok _ |- _ =>
               apply get_column_Ok in H
           | H : get_column _ _ = Raised _ |- _ =>
               apply get_column_Raised in H; destruct H as [-> ?]
           end;
    split_in Hin;
    first
      [ exfalso; lia
      | split; [discriminate|];
        split; [intros resp Hshow; split_in Hshow|];
        intros Hno; first [reflexivity | exfalso; eapply Hno; in_list] ]).
Qed.

(** Once [save_amps] has returned, the file holds the array the dynamics
    object was initialised with, whose columns are the two pulses generated,
    and its name has been printed. *)
Lemma saved_file_holds_pulses cfg m s fs o w' :
  script_from cfg m (start s fs) = (o, w') ->
  forall f, In (save_amps Amp f, RNone) (log w') ->
  exists p0 p1 a resp rest,
    log w' =
      (create_pulse_optimizer Amp (Physics.drift m) (Physics.ctrls m)
         (Physics.m_initial m) (Physics.m_target_DP m)
         (n_ts cfg) (evo_time cfg) (kwargs cfg), resp) ::
      (gen_pulse, RPulse Amp p0) :: (gen_pulse, RPulse Amp p1) ::
      (initialize_controls Amp a, RNone) :: (save_amps Amp f, RNone) :: rest /\
    files w' !! f = Some a /\
    ctrl_amps w' = Some a /\
    In ("Initial amplitudes output to file: " +:+ f) (stdout w') /\
    (length p0 = n_ts cfg -> length p1 = n_ts cfg ->
     get_column a 0 = Ok p0 /\ get_column a 1 = Ok p1).
Proof.
  run_all ltac:(
    intros f Hin; split_in Hin;
    (eexists _, _, _, _, _;
     split; [reflexivity|];
     split; [apply lookup_insert_eq|];
     split; [reflexivity|];
     split; [in_list|];
     intros L0 L1; eapply two_columns; eassumption)).
Qed.

End Properties.

(** ** Reading names and counts off a log *)

Lemma saved_names_Forall {Amp : Type} (P : string -> Prop) (l : list (Call Amp * Resp Amp)) :
  Forall (fun e => forall f, fst e = save_amps Amp f -> P f) l ->
  Forall P (saved_names l).
Proof.
  induction 1 as [|[c r] l Hx _ IH]; [constructor|].
  destruct c; cbn [saved_names]; try exact IH.
  constructor; [apply Hx; reflexivity | exact IH].
Qed.

Lemma saved_names_length {Amp : Type} (l : list (Call Amp * Resp Amp)) :
  length (saved_names l) = count_kind KSaveAmps l.
Proof.
  induction l as [|[c r] l IH]; [reflexivity|].
  destruct c; cbn; rewrite ?IH; reflexivity.
Qed.

(** ** The claims about the script *)

Section Claims.
Context {Amp : Type} (amp0 : Amp) (str_float str_timedelta : Amp -> string)
  (logging_INFO : Z) {lstate : Type}
  (handle : forall c : Call Amp, lstate -> Outcome (Ret Amp c) * lstate).

Local Abbreviation script_from :=
  (script_from Amp amp0 str_float str_timedelta logging_INFO lstate handle).
Local Abbreviation run cfg s fs :=
  (script Amp amp0 str_float str_timedelta logging_INFO lstate handle cfg (start s fs)).
Local Abbreviation generate_init_amps := (generate_init_amps Amp amp0 lstate handle).
Local Abbreviation fill_columns := (fill_columns Amp amp0 lstate handle).
Local Abbreviation get_column := (get_column Amp amp0).

Ltac open_run o w' E :=
  rewrite ?script_unfold;
  match goal with
  | |- context [script_from ?cfg ?m ?w] =>
      destruct (script_from cfg m w) as [o w'] eqn:E
  end;
  cbn [fst snd].

(** C1 (as amended): the file the initial amplitudes are saved to is named
    [ctrl_amps_initial_] followed by
    [{example_name}_n_ts{n_ts}_ptype{p_type}.txt]; every [save_amps] call of
    every run names that file, there is at most one such call, and with the
    script's constants the name is
    [ctrl_amps_initial_Lindblad_n_ts10_ptypeLIN.txt]. *)
Theorem initial_amps_file_name cfg s fs :
  pulsefile cfg =
    Ok ("ctrl_amps_initial_" +:+ example_name cfg +:+ "_n_ts" +:+
        PyStr.str_int (Z.of_nat (n_ts cfg)) +:+ "_ptype" +:+ p_type cfg +:+ ".txt") /\
  Forall (fun f => pulsefile cfg = Ok f) (saved_names (log (snd (run cfg s fs)))) /\
  length (saved_names (log (snd (run cfg s fs)))) <= 1 /\
  pulsefile config0 = Ok "ctrl_amps_initial_Lindblad_n_ts10_ptypeLIN.txt".
Proof.
  split; [reflexivity|].
  open_run o w' E.
  destruct (saved_name _ _ _ _ _ _ _ _ _ _ _ E) as [Hall Hcount].
  split; [apply saved_names_Forall, Hall|].
  split; [rewrite saved_names_length; exact Hcount | reflexivity].
Qed.

(** C3: the factory is the first call of every run, made once, with the
    drift, the control list, the initial and target operators, ten slots and
    total time five positionally and the keyword values of the script; the
    optimisation run takes no argument, is made at most once, and is made in
    every run that completes. *)
Theorem optimizer_created_once_then_run s fs :
  Physics.build = Ok Physics.model0 /\
  (exists resp rest,
     log (snd (run config0 s fs)) =
     (create_pulse_optimizer Amp
        (Physics.drift Physics.model0) (Physics.ctrls Physics.model0)
        (Physics.m_initial Physics.model0) (Physics.m_target_DP Physics.model0)
        10 5
        (mkKwargs (1 # 1000) (1 # 10 ^ 20) 500 30 "LIN" logging_INFO true),
      resp) :: rest) /\
  count_kind KCreate (log (snd (run config0 s fs))) = 1 /\
  count_kind KRun (log (snd (run config0 s fs))) <= 1 /\
  (fst (run config0 s fs) = Ok tt ->
   count_kind KRun (log (snd (run config0 s fs))) = 1).
Proof.
  split; [exact build_ok|].
  open_run o w' E.
  exact (factory_first _ _ _ _ _ _ _ _ _ _ _ E).
Qed.

(** The loop of lines 137-138 completes when the library keeps returning
    pulses of the right length. *)
Lemma fill_columns_total t (Inv : lstate -> Prop)
  (Hstep : forall s, Inv s ->
     exists p s', handle gen_pulse s = (Ok p, s') /\ length p = t /\ Inv s') js :
  forall a w, Inv (lib w) -> nrows a = t -> (forall j, In j js -> j < ncols a) ->
  exists a' w', fill_columns js a w = (Ok a', w').
Proof.
  induction js as [|j js IH]; intros a w Hinv Hrows Hcols.
  - eexists _, _. reflexivity.
  - simpl. unfold mbind, M_bind, bind, call, lift.
    destruct (Hstep _ Hinv) as (p & s' & Hp & Hlen & Hinv').
    rewrite Hp.
    rewrite (set_column_total amp0 a j p);
      [| apply Hcols; left; reflexivity | congruence].
    apply IH.
    + exact Hinv'.
    + cbn. exact Hrows.
    + intros j' Hj'. cbn. apply Hcols. right. exact Hj'.
Qed.

(** C4: for T time slots and N controls the initial amplitude array has
    shape (T, N); it takes exactly N calls of the pulse generator, and
    column j holds the j-th pulse returned, whatever the other pulses are.
    The loop completes when the generator keeps returning pulses of length
    T.  In the script N is the length of the control list. *)
Theorem init_amps_shape t n (w : World Amp lstate) :
  (forall a w', generate_init_amps t n w = (Ok a, w') ->
     nrows a = t /\ ncols a = n /\ length (cells a) = t * n /\
     exists ps, length ps = n /\ log w' = log w ++ (pulse_entry <$> ps) /\
       forall j p, ps !! j = Some p -> length p = t -> get_column a j = Ok p) /\
  (forall Inv : lstate -> Prop,
     Inv (lib w) ->
     (forall s, Inv s ->
        exists p s', handle gen_pulse s = (Ok p, s') /\ length p = t /\ Inv s') ->
     exists a w', generate_init_amps t n w = (Ok a, w')) /\
  (forall cfg m s fs,
     Forall (fun e => forall a, fst e = initialize_controls Amp a ->
                      nrows a = n_ts cfg /\ ncols a = length (Physics.ctrls m))
            (log (snd (script_from cfg m (start s fs))))).
Proof.
  split; [|split].
  - intros a w' H. unfold generate_init_amps in H.
    apply fill_columns_spec in H.
    destruct H as ((Hr & Hc & Hl) & _ & ps & Hlen & Hlog & _ & Hcol).
    cbn [nrows ncols cells np_zeros] in *.
    rewrite length_replicate in Hl. rewrite length_seq in Hlen.
    repeat split; try assumption.
    exists ps. repeat split; try assumption.
    intros j p Hj Hp.
    apply (Hcol (NoDup_seq 0 n) ltac:(apply length_replicate) j j p); [|exact Hj|exact Hp].
    apply lookup_seq. split; [reflexivity|].
    apply lookup_lt_Some in Hj. lia.
  - intros Inv Hinv Hstep. unfold generate_init_amps.
    apply (fill_columns_total t Inv Hstep); [exact Hinv | reflexivity |].
    intros j Hj. apply in_seq in Hj. cbn. lia.
  - intros cfg m s fs.
    destruct (script_from cfg m (start s fs)) as [o w'] eqn:E. cbn [snd].
    destruct (init_amps_shape_in_run _ _ _ _ _ _ _ _ _ _ _ E) as [Hall _].
    eapply Forall_impl; [exact Hall|].
    intros e He a Ha. destruct (He a Ha) as (? & ? & _). split; assumption.
Qed.




(** C9: the three control generators are all built, the optimiser gets the
    list of LC_z and LC_x in that order, LC_y is not in it and the script
    behaves the same whatever LC_y is; there are two control channels. *)
Theorem only_two_controls_supplied cfg s fs :
  Physics.build = Ok Physics.model0 /\
  Physics.LC_x = Ok (Physics.m_LC_x Physics.model0) /\
  Physics.LC_y = Ok (Physics.m_LC_y Physics.model0) /\
  Physics.LC_z = Ok (Physics.m_LC_z Physics.model0) /\
  Physics.ctrls Physics.model0 =
    [Physics.m_LC_z Physics.model0; Physics.m_LC_x Physics.model0] /\
  Physics.n_ctrls Physics.model0 = 2 /\
  ~ In (Physics.m_LC_y Physics.model0) (Physics.ctrls Physics.model0) /\
  (exists d i t n et kw resp rest,
     log (snd (run cfg s fs)) =
     (create_pulse_optimizer Amp d
        [Physics.m_LC_z Physics.model0; Physics.m_LC_x Physics.model0]
        i t n et kw, resp) :: rest) /\
  (forall y m w,
     script_from cfg (Physics.with_LC_y y m) w = script_from cfg m w) /\
  Forall (fun e => forall a, fst e = initialize_controls Amp a -> ncols a = 2)
         (log (snd (run cfg s fs))) /\
  count_kind KGenPulse (log (snd (run cfg s fs))) <= 2.
Proof.
  split; [exact build_ok|].
  split; [vm_compute; reflexivity|].
  split; [vm_compute; reflexivity|].
  split; [vm_compute; reflexivity|].
  split; [reflexivity|]. split; [reflexivity|].
  split.
  { intros [H|[H|[]]]; vm_compute in H; discriminate H. }
  split.
  { open_run o w' E.
    destruct (factory_first _ _ _ _ _ _ _ _ _ _ _ E) as ((resp & rest & Hlog) & _).
    rewrite Hlog. eexists _, _, _, _, _, _, _, _. reflexivity. }
  split; [reflexivity|].
  open_run o w' E.
  destruct (init_amps_shape_in_run _ _ _ _ _ _ _ _ _ _ _ E) as (Hall & Hgen & _).
  split; [|exact Hgen].
  eapply Forall_impl; [exact Hall|].
  intros e He a Ha. destruct (He a Ha) as (_ & Hc & _). exact Hc.
Qed.


End Claims.

(** ** More about the runs *)

Section Extras.
Context {Amp : Type} (amp0 : Amp) (str_float str_timedelta : Amp -> string)
  (logging_INFO : Z) {lstate : Type}
  (handle : forall c : Call Amp, lstate -> Outcome (Ret Amp c) * lstate).

Local Abbreviation script_from :=
  (script_from Amp amp0 str_float str_timedelta logging_INFO lstate handle).
Local Abbreviation run cfg s fs :=
  (script Amp amp0 str_float str_timedelta logging_INFO lstate handle cfg (start s fs)).
Local Abbreviation get_column := (get_column Amp amp0).

Ltac open_run o w' E :=
  rewrite ?script_unfold;
  match goal with
  | |- context [script_from ?cfg ?m ?w] =>
      destruct (script_from cfg m w) as [o w'] eqn:E
  end;
  cbn [fst snd].

(** X1: control flow is one straight line.  The calls of any run are, by
    kind, an initial part of the plan (factory, one pulse per control,
    initialisation, save, the gradient check if asked for, optimisation,
    statistics, plotting), and a run that completes has made exactly the
    calls of the plan. *)
Theorem run_follows_plan cfg s fs :
  (exists rest,
     plan (check_gradient cfg) (Physics.n_ctrls Physics.model0) =
     kinds (log (snd (run cfg s fs))) ++ rest) /\
  (fst (run cfg s fs) = Ok tt ->
   kinds (log (snd (run cfg s fs))) =
   plan (check_gradient cfg) (Physics.n_ctrls Physics.model0)).
Proof.
  open_run o w' E. exact (follows_plan _ _ _ _ _ _ _ _ _ _ _ E).
Qed.

(** X2: a run that completes has printed the opening lines with the name of
    the amplitude file, the three gradient-check lines if the check returned
    a value, and the summary of the result the optimisation returned, in that
    order and nothing else. *)
Theorem completed_run_transcript cfg s fs :
  fst (run cfg s fs) = Ok tt ->
  exists f r,
    pulsefile cfg = Ok f /\
    In (run_optimization, RResult Amp r) (log (snd (run cfg s fs))) /\
    stdout (snd (run cfg s fs)) =
      transcript Amp str_float str_timedelta f
        (returned_grad_diff (log (snd (run cfg s fs)))) r.
Proof.
  open_run o w' E. exact (transcript_of_run _ _ _ _ _ _ _ _ _ _ _ E).
Qed.

(** X3: a run that completes has drawn four lines: columns 0 and 1 of the
    initial amplitudes on the first axes, columns 0 and 1 of the final
    amplitudes on the second, each against the first [n_ts] entries of the
    result's time vector; its last call is [plt.show]. *)
Theorem completed_run_plots cfg s fs :
  fst (run cfg s fs) = Ok tt ->
  exists r c0 c1 d0 d1,
    In (run_optimization, RResult Amp r) (log (snd (run cfg s fs))) /\
    get_column (initial_amps Amp r) 0 = Ok c0 /\
    get_column (initial_amps Amp r) 1 = Ok c1 /\
    get_column (final_amps Amp r) 0 = Ok d0 /\
    get_column (final_amps Amp r) 1 = Ok d1 /\
    plotted (log (snd (run cfg s fs))) =
      [(ax1, take (n_ts cfg) (time Amp r), c0);
       (ax1, take (n_ts cfg) (time Amp r), c1);
       (ax2, take (n_ts cfg) (time Amp r), d0);
       (ax2, take (n_ts cfg) (time Amp r), d1)] /\
    last (calls_of (log (snd (run cfg s fs)))) = Some plt_show.
Proof.
  open_run o w' E. exact (plots_of_run _ _ _ _ _ _ _ _ _ _ _ E).
Qed.


(** X5: when the pulse generator returns a pulse whose length is neither
    the number of time slots nor one, the column assignment raises
    [ValueError]: the controls are never initialised, [save_amps] is never
    called and no file is written. *)
Theorem wrong_length_pulse_raises cfg s fs p :
  In (gen_pulse, RPulse Amp p) (log (snd (run cfg s fs))) ->
  length p <> n_ts cfg -> length p <> 1 ->
  fst (run cfg s fs) = Raised ValueError /\
  count_kind KInitialize (log (snd (run cfg s fs))) = 0 /\
  count_kind KSaveAmps (log (snd (run cfg s fs))) = 0 /\
  files (snd (run cfg s fs)) = fs /\
  ctrl_amps (snd (run cfg s fs)) = None.
Proof.
  open_run o w' E. exact (bad_pulse_stops _ _ _ _ _ _ _ _ _ _ _ E p).
Qed.


End Extras.

(** ** File names *)

Lemma append_inv_head (a x y : string) : a +:+ x = a +:+ y -> x = y.
Proof.
  induction a as [|c a IH]; [intros H; exact H|].
  change (String c (a +:+ x) = String c (a +:+ y) -> x = y).
  intros [= H]. exact (IH H).
Qed.

Lemma append_length (a b : string) :
  String.length (a +:+ b) = String.length a + String.length b.
Proof.
  induction a as [|c a IH]; [reflexivity|].
  change (S (String.length (a +:+ b)) = S (String.length a + String.length b)).
  rewrite IH. reflexivity.
Qed.

Lemma append_inv_tail (x y z : string) : x +:+ z = y +:+ z -> x = y.
Proof.
  revert y. induction x as [|c x IH]; intros [|d y] H.
  - reflexivity.
  - apply (f_equal String.length) in H.
    change (String d y +:+ z) with (String d (y +:+ z)) in H.
    change (EmptyString +:+ z) with z in H.
    cbn [String.length] in H. rewrite append_length in H. lia.
  - apply (f_equal String.length) in H.
    change (String c x +:+ z) with (String c (x +:+ z)) in H.
    change (EmptyString +:+ z) with z in H.
    cbn [String.length] in H. rewrite append_length in H. lia.
  - change (String c (x +:+ z) = String d (y +:+ z)) in H.
    injection H as -> H. rewrite (IH _ H). reflexivity.
Qed.

(** X7: two configurations with the same example name and pulse type, but
    different numbers of time slots, never share an amplitude file. *)
Theorem pulsefile_tells_slot_counts_apart cfg1 cfg2 :
  example_name cfg1 = example_name cfg2 ->
  p_type cfg1 = p_type cfg2 ->
  pulsefile cfg1 = pulsefile cfg2 ->
  n_ts cfg1 = n_ts cfg2.
Proof.
  intros Hname Htype. unfold pulsefile. rewrite !f_ext_ok, Hname, Htype.
  intros [= H]. unfold pulsefile_of in H.
  apply append_inv_head in H. apply append_inv_head in H.
  apply append_inv_head in H. apply append_inv_tail in H.
  apply pretty_Z_inj in H. exact (Nat2Z.inj _ _ H).
Qed.

(** ** The generators *)

Lemma Qred_zero (q : Q) : (q == 0)%Q -> Qred q = 0%Q.
Proof. intros H. exact (Qred_complete q 0 H). Qed.

Lemma mul_integers_cancel (g : Num.num) (a b : Z) :
  (a + b = 0)%Z ->
  Num.add (Num.mul g (Num.of_Z a)) (Num.mul g (Num.of_Z b)) = Num.zero.
Proof.
  intros Hab. replace b with (- a)%Z by lia.
  change Num.zero with (Num.mk 0 0 0 0).
  unfold Num.add, Num.mul, Num.of_Z, Num.of_Q.
  cbn [Num.r1 Num.r2 Num.i1 Num.i2].
  f_equal; apply Qred_zero; rewrite !Qred_correct, inject_Z_opp; ring.
Qed.


(** ** The claims on concrete runs *)

(** C1, as first stated, fails: with the script's constants the one file
    saved is not named [Lindblad_n_ts10_ptypeLIN.txt]. *)
Lemma initial_amps_file_name_is_prefixed :
  saved_names (log (snd (Demo.run Demo.plain config0))) =
    ["ctrl_amps_initial_Lindblad_n_ts10_ptypeLIN.txt"] /\
  "ctrl_amps_initial_Lindblad_n_ts10_ptypeLIN.txt" <> "Lindblad_n_ts10_ptypeLIN.txt".
Proof. split; [vm_compute; reflexivity | discriminate]. Qed.

Lemma optimizer_created_once_then_run_witness :
  fst (Demo.run Demo.plain config0) = Ok tt /\
  count_kind KRun (log (snd (Demo.run Demo.plain config0))) = 1.
Proof.
  split; [vm_compute; reflexivity|].
  destruct (optimizer_created_once_then_run 0%Z pretty pretty 20%Z
              (Demo.handle Demo.plain) Demo.state0 ∅) as (_ & _ & _ & _ & H).
  apply H. vm_compute. reflexivity.
Defined.

Lemma init_amps_shape_witness :
  exists a w',
    generate_init_amps Demo.Amp 0%Z Demo.state (Demo.handle Demo.plain) 3 2
      (start (Demo.mkState 3 (mkNdArray 0 0 [])) ∅) = (Ok a, w') /\
    nrows a = 3 /\ ncols a = 2.
Proof.
  destruct (init_amps_shape 0%Z pretty pretty 20%Z (Demo.handle Demo.plain) 3 2
              (start (Demo.mkState 3 (mkNdArray 0 0 [])) ∅))
    as (Hshape & Htotal & _).
  destruct (Htotal (fun s => Demo.tslots s = 3)) as (a & w' & Hrun).
  - reflexivity.
  - intros [ts h] Hs. simpl in Hs. subst ts.
    eexists _, _. split; [reflexivity|]. split; reflexivity.
  - exists a, w'. split; [exact Hrun|].
    destruct (Hshape a w' Hrun) as (Hr & Hc & _). split; assumption.
Defined.




Lemma run_follows_plan_witness :
  kinds (log (snd (Demo.run Demo.plain Demo.cfg3))) = plan true 2.
Proof.
  refine (proj2 (run_follows_plan 0%Z pretty pretty 20%Z
                   (Demo.handle Demo.plain) Demo.cfg3 Demo.state0 ∅) _).
  vm_compute. reflexivity.
Defined.

Lemma completed_run_transcript_witness :
  exists f r,
    pulsefile Demo.cfg3_quiet = Ok f /\
    In (run_optimization, RResult Demo.Amp r)
       (log (snd (Demo.run Demo.plain Demo.cfg3_quiet))) /\
    stdout (snd (Demo.run Demo.plain Demo.cfg3_quiet)) =
      transcript Demo.Amp pretty pretty f
        (returned_grad_diff (log (snd (Demo.run Demo.plain Demo.cfg3_quiet)))) r.
Proof.
  apply (completed_run_transcript 0%Z pretty pretty 20%Z
           (Demo.handle Demo.plain) Demo.cfg3_quiet Demo.state0 ∅).
  vm_compute. reflexivity.
Defined.

Lemma completed_run_plots_witness :
  last (calls_of (log (snd (Demo.run Demo.plain Demo.cfg3)))) = Some plt_show.
Proof.
  destruct (completed_run_plots 0%Z pretty pretty 20%Z
              (Demo.handle Demo.plain) Demo.cfg3 Demo.state0 ∅)
    as (r & c0 & c1 & d0 & d1 & _ & _ & _ & _ & _ & _ & H).
  - vm_compute. reflexivity.
  - exact H.
Defined.


Lemma wrong_length_pulse_raises_witness :
  fst (Demo.run Demo.long_pulses Demo.cfg3) = Raised ValueError.
Proof.
  destruct (wrong_length_pulse_raises 0%Z pretty pretty 20%Z
              (Demo.handle Demo.long_pulses) Demo.cfg3 Demo.state0 ∅
              [0; 1; 2; 3; 4]%Z) as (H & _).
  - vm_compute. right. left. reflexivity.
  - vm_compute. lia.
  - vm_compute. lia.
  - exact H.
Defined.


Lemma pulsefile_tells_slot_counts_apart_witness :
  n_ts Demo.cfg3 = n_ts Demo.cfg3_quiet.
Proof.
  apply pulsefile_tells_slot_counts_apart; reflexivity.
Defined.
